(** * provider-aws: endpoint resolution and SigV4 request signing

    A shallow embedding of [src.ts/providers/provider-aws.ts]: the community
    node directory, the endpoint builder, credential discovery, the preflight
    hook that signs every outgoing request, the [AwsProvider] constructor and
    [_getProvider].

    Thrown exceptions are the [Throw] outcome of a computation; the ambient
    AWS configuration, the wall clock and the console are fields of an
    explicit [World] threaded through the effectful functions. *)

From Stdlib Require Import Ascii.
From stdpp Require Import base option strings pretty list gmap fin_maps.

Open Scope string_scope.

(** ** Errors and outcomes *)

(** The exceptions the module can raise. [assertArgument] raises an
    [ArgumentError] carrying the message, the argument name and the offending
    value; [new Error(msg)] is [PlainError]; [TypeError] is what the language
    itself raises (destructuring [undefined], an unparsable URL). *)
Inductive error : Type :=
| ArgumentError (message name : string) (value : option string)
| PlainError (message : string)
| TypeError (message : string).

Inductive result (A : Type) : Type :=
| Ok (a : A)
| Throw (e : error).
Arguments Ok {A} a.
Arguments Throw {A} e.

#[global] Instance result_ret : MRet result := fun _ a => Ok a.
#[global] Instance result_bind : MBind result := fun _ _ f r =>
  match r with
  | Ok a => f a
  | Throw e => Throw e
  end.

#[global] Instance result_fmap : FMap result := fun _ _ f r =>
  match r with
  | Ok a => Ok (f a)
  | Throw e => Throw e
  end.

(** [assertArgument(check, message, name, value)] of [utils/errors]: returns
    when [check] holds and raises the argument error otherwise. *)
Definition assertArgument (check : bool) (message name : string)
    (value : option string) : result unit :=
  if check then Ok tt else Throw (ArgumentError message name value).

(** ** Values *)

(** A JavaScript value that is a string or [undefined]. *)
Abbreviation jsstring := (option string) (only parsing).

(** Truthiness of such a value: [undefined] and the empty string are falsy. *)
Definition truthy (v : jsstring) : bool :=
  match v with
  | Some s => negb (String.eqb s "")
  | None => false
  end.

(** The string held by a value that passed a truthiness test. *)
Definition text (v : jsstring) : string := default "" v.

Record Network : Type := mkNetwork {
  name : string;
  chainId : Z
}.

(** [Networkish]: a network name, a chain id, or a network object. *)
Inductive Networkish : Type :=
| NwName (s : string)
| NwChainId (n : Z)
| NwObject (n : Network).

Record NodeProps : Type := mkNodeProps {
  community_nodeId : string;
  community_nodeRegion : string
}.

(** ** getCommunityAmbNodeProps *)

(** The [switch] has five arms, none of which ends in [break]: control enters
    at the arm selected by the name and runs every later arm too. *)
Definition switch_entry (s : string) : nat :=
  if String.eqb s "mainnet" then 0
  else if String.eqb s "goerli" then 1
  else if String.eqb s "matic" then 2
  else if String.eqb s "matic-mumbai" then 3
  else 4.

Definition no_community_node : string :=
  "No Amazon Managed Blockchain community node found for network".

Definition switch_arms (network : Network) : list (result unit) :=
  [ assertArgument false no_community_node "network.name" (Some (name network));
    assertArgument false no_community_node "network.name" (Some (name network));
    assertArgument false no_community_node "network.name" (Some (name network));
    assertArgument false no_community_node "network.name" (Some (name network));
    assertArgument false "Unsupported network" "network.name" (Some (name network)) ].

Fixpoint run_arms (arms : list (result unit)) : result unit :=
  match arms with
  | [] => Ok tt
  | arm :: rest => _ ← arm; run_arms rest
  end.

(** Falling off the end of the function yields [undefined] ([None]). *)
Definition getCommunityAmbNodeProps (network : Network) : result (option NodeProps) :=
  _ ← run_arms (drop (switch_entry (name network)) (switch_arms network));
  Ok None.

(** ** getAmbNodeUrl *)

Definition getAmbNodeUrl (nodeId nodeRegion : string) (billingToken : jsstring) : string :=
  let url := "https://" +:+ nodeId +:+ ".ethereum.managedblockchain." +:+ nodeRegion +:+ ".amazonaws.com" in
  if truthy billingToken then url +:+ "?billingToken=" +:+ text billingToken else url.

(** ** Records of the platform *)

(** The parts of a parsed [URL] the module reads. *)
Record URL : Type := mkURL {
  protocol : string;
  hostname : string;
  host : string;
  pathname : string
}.

(** The options object handed to [new http.HttpRequest]. *)
Record RequestOptions : Type := mkRequestOptions {
  opt_protocol : string;
  opt_hostname : string;
  opt_method : string;
  opt_headers : list (string * string);
  opt_path : string;
  opt_body : jsstring
}.

Inductive HashConstructor : Type := Sha256.

(** The argument of [new sigv4.SignatureV4], over the type of credentials. *)
Record SignatureV4 (C : Type) : Type := mkSignatureV4 {
  sig_credentials : C;
  sig_region : string;
  sig_service : string;
  sig_sha256 : HashConstructor
}.
Arguments mkSignatureV4 {C} _ _ _ _.
Arguments sig_credentials {C} _.
Arguments sig_region {C} _.
Arguments sig_service {C} _.
Arguments sig_sha256 {C} _.

(** What the module imports and does not define: the AWS SDK, the signer, the
    platform's [URL] and [TextDecoder], and [Network.from]. *)
Class Platform : Type := {
  (** [aws.Credentials]: opaque to this module, which only passes them on. *)
  Credentials : Type;
  (** [Network.from] of [providers/network]: normalises a name, a chain id or
      a network object, raising when the registry does not know it. *)
  Network_from : Networkish → result Network;
  (** The [URL] constructor; it raises on a malformed URL. *)
  URL_new : string → result URL;
  (** [new TextDecoder().decode]. *)
  TextDecoder_decode : list Byte.byte → string;
  (** [http.HttpRequest] of [@aws-sdk/protocol-http]. *)
  HttpRequest : Type;
  HttpRequest_new : RequestOptions → HttpRequest;
  (** [Object.entries] of the request's header bag, in enumeration order. *)
  HttpRequest_headers : HttpRequest → list (string * string);
  (** [signerV4.sign(request, { signingDate })] of [@aws-sdk/signature-v4];
      the date is in milliseconds since the epoch, a rejected promise is
      [Throw]. *)
  SignatureV4_sign : SignatureV4 Credentials → HttpRequest → Z → result HttpRequest;
  (** The folding [FetchRequest] applies to a header name before it uses it
      as a key, which makes the header mapping case-insensitive. *)
  header_key : string → string
}.

Section World.
Context `{Platform}.

(** ** The world and the computations over it *)

Inductive Event : Type :=
| DirectoryLookup (network : Network)  (* getCommunityAmbNodeProps is called *)
| ConfigRead                           (* new aws.Config() reads the environment *)
| ConsoleError (e : error).            (* console.error(e) *)

Record World : Type := mkWorld {
  ambient : option Credentials;  (* what the AWS SDK finds in the environment *)
  now : Z;                       (* the wall clock, in milliseconds *)
  trace : list Event             (* what has happened so far, oldest first *)
}.

Definition M (A : Type) : Type := World → result A * World.

#[global] Instance M_ret : MRet M := fun _ a w => (Ok a, w).
#[global] Instance M_bind : MBind M := fun _ _ f m w =>
  match m w with
  | (Ok a, w') => f a w'
  | (Throw e, w') => (Throw e, w')
  end.

Definition lift {A : Type} (r : result A) : M A := fun w => (r, w).

Definition throw {A : Type} (e : error) : M A := lift (Throw e).

Definition emit (ev : Event) : M unit := fun w =>
  (Ok tt, mkWorld (ambient w) (now w) (trace w ++ [ev])).

(** [try { body } catch (error) { ... }]: the outcome of [body] as a value. *)
Definition catching {A : Type} (body : M A) : M (result A) := fun w =>
  let '(r, w') := body w in (Ok r, w').

(** [new Date()]. *)
Definition Date_new : M Z := fun w => (Ok (now w), w).

Definition console_error (e : error) : M unit := emit (ConsoleError e).

Definition read_ambient : M (option Credentials) := fun w => (Ok (ambient w), w).

(** [new aws.Config().credentials]. *)
Definition aws_Config_credentials : M (option Credentials) :=
  _ ← emit ConfigRead;
  read_ambient.

(** ** FetchRequest *)

(** The closure installed as [preflightFunc], by the variables it captures. *)
Record Preflight : Type := mkPreflight {
  captured_credentials : Credentials;
  captured_nodeRegion : string
}.

Record FetchRequest : Type := mkFetchRequest {
  url : string;
  method : string;
  headers : gmap string string;
  body : option (list Byte.byte);
  preflightFunc : option Preflight
}.

(** Modelled from the spec: [new FetchRequest(url)], which is not in the
    source tree; a fresh request is bound to the URL, is a GET, and has no
    headers, no body and no hook. *)
Definition FetchRequest_new (u : string) : FetchRequest :=
  mkFetchRequest u "GET" ∅ None None.

(** Modelled from the spec: [FetchRequest.setHeader], which is not in the
    source tree; the value is stored under the folded name and overwrites a
    header of the same name. *)
Definition setHeader (key value : string) (r : FetchRequest) : FetchRequest :=
  mkFetchRequest (url r) (method r) (<[header_key key := value]> (headers r))
    (body r) (preflightFunc r).

Definition with_preflightFunc (f : Preflight) (r : FetchRequest) : FetchRequest :=
  mkFetchRequest (url r) (method r) (headers r) (body r) (Some f).

(** ** AwsProvider *)

Record AwsProviderProps : Type := mkAwsProviderProps {
  props_nodeId : jsstring;
  props_nodeRegion : jsstring;
  props_billingToken : jsstring;
  props_network : option Networkish;
  props_credentials : option Credentials
}.

(** The read-only [aws] attribute. *)
Record Aws : Type := mkAws {
  nodeRegion : string;
  nodeId : string;
  nodeHttpEndpoint : string;
  credentials : Credentials
}.

(** Modelled from the spec: the state of the [JsonRpcProvider] base class,
    which is not in the source tree; it holds the request template and the
    network, pinned as static. *)
Record JsonRpcProvider : Type := mkJsonRpcProvider {
  connection : FetchRequest;
  network : Network;
  staticNetwork : option Network
}.

Record AwsProvider : Type := mkAwsProvider {
  base : JsonRpcProvider;
  aws : Aws
}.

End World.

(** What the base class answers to [super._getProvider(chainId)]. *)
Class BaseProvider `{Platform} : Type := {
  OtherProvider : Type;
  JsonRpcProvider_getProvider : JsonRpcProvider → Z → M OtherProvider
}.

Section Provider.
Context `{BaseProvider}.

Inductive AbstractProvider : Type :=
| IsAwsProvider (p : AwsProvider)
| IsOtherProvider (b : OtherProvider).

Definition credentials_not_found : string :=
  "AWS Credentials not found by the AWS SDK. To learn how to set AWS credentials for your environment, please visit https://docs.aws.amazon.com/sdk-for-javascript/v2/developer-guide/setting-credentials-node.html".

Definition credentials_guide : string :=
  "https://docs.aws.amazon.com/sdk-for-javascript/v2/developer-guide/setting-credentials-node.html".

Definition getDefaultAwsCredentials : M Credentials :=
  found ← aws_Config_credentials;
  match found with
  | Some c => mret c
  | None => throw (PlainError credentials_not_found)
  end.

(** Lines 151-182 of the hook: the header entries of the signed request. *)
Definition signedAwsHeaders (creds : Credentials) (region : string)
    (ethersRequest : FetchRequest) : M (list (string * string)) :=
  urlParser ← lift (URL_new (url ethersRequest));
  let requestOptions :=
    mkRequestOptions (protocol urlParser) (hostname urlParser)
      (method ethersRequest) [("host", host urlParser)] (pathname urlParser)
      (TextDecoder_decode <$> body ethersRequest) in
  let awsRequest := HttpRequest_new requestOptions in
  let signerV4 := mkSignatureV4 creds region "managedblockchain" Sha256 in
  signingDate ← Date_new;
  signedAwsRequest ← lift (SignatureV4_sign signerV4 awsRequest signingDate);
  mret (HttpRequest_headers signedAwsRequest).

(** The hook: sign, then copy every signed header onto the request. *)
Definition preflightFunc_run (creds : Credentials) (region : string)
    (ethersRequest : FetchRequest) : M FetchRequest :=
  entries ← signedAwsHeaders creds region ethersRequest;
  mret (foldl (fun r kv => setHeader kv.1 kv.2 r) ethersRequest entries).

Definition getFetchRequest (creds : Credentials) (nodeId nodeRegion : string)
    (billingToken : jsstring) : FetchRequest :=
  let request := FetchRequest_new (getAmbNodeUrl nodeId nodeRegion billingToken) in
  with_preflightFunc (mkPreflight creds nodeRegion) request.

(** Runs the hook installed on a request, if there is one. *)
Definition preflight (r : FetchRequest) : M FetchRequest :=
  match preflightFunc r with
  | Some f => preflightFunc_run (captured_credentials f) (captured_nodeRegion f) r
  | None => mret r
  end.

Definition AwsProvider_new (props : AwsProviderProps) : M AwsProvider :=
  let nodeId := props_nodeId props in
  let nodeRegion := props_nodeRegion props in
  let network := default (NwName "mainnet") (props_network props) in
  network ← lift (Network_from network);
  loc ← (if negb (truthy nodeId) && truthy nodeRegion then
           _ ← lift (assertArgument false "nodeId required with nodeRegion" "nodeId" nodeId);
           mret (nodeId, nodeRegion)
         else if truthy nodeId && negb (truthy nodeRegion) then
           _ ← lift (assertArgument false "nodeRegion required with nodeId" "nodeRegion" nodeRegion);
           mret (nodeId, nodeRegion)
         else if negb (truthy nodeId) then
           _ ← emit (DirectoryLookup network);
           found ← lift (getCommunityAmbNodeProps network);
           match found with
           | Some p => mret (Some (community_nodeId p), Some (community_nodeRegion p))
           | None => throw (TypeError "Cannot destructure property 'nodeId' of undefined")
           end
         else mret (nodeId, nodeRegion));
  let nodeId := text loc.1 in
  let nodeRegion := text loc.2 in
  creds ← match props_credentials props with
          | Some c => mret c
          | None => getDefaultAwsCredentials
          end;
  let request := getFetchRequest creds nodeId nodeRegion (props_billingToken props) in
  mret (mkAwsProvider (mkJsonRpcProvider request network (Some network))
          (mkAws nodeRegion nodeId (url request) creds)).

Definition _getProvider (this : AwsProvider) (chainId : Z) : M AbstractProvider :=
  attempt ← catching (AwsProvider_new
                   (mkAwsProviderProps (Some (nodeId (aws this)))
                      (Some (nodeRegion (aws this))) None
                      (Some (NwChainId chainId)) (Some (credentials (aws this)))));
  match attempt with
  | Ok p => mret (IsAwsProvider p)
  | Throw e =>
      _ ← console_error e;
      b ← JsonRpcProvider_getProvider (base this) chainId;
      mret (IsOtherProvider b)
  end.

End Provider.

(** ** A sample platform

    One concrete choice of what the module imports, on which the definitions
    above evaluate: static access keys, a registry with the four networks of
    the header comment, a parser for [https://host/path] URLs, and a toy
    signer that stamps the date and a tag computed from the canonical
    request. *)

Record AccessKeys : Type := mkAccessKeys {
  accessKeyId : string;
  secretAccessKey : string;
  sessionToken : jsstring
}.

Definition sample_Network_from (n : Networkish) : result Network :=
  match n with
  | NwName s =>
      if String.eqb s "mainnet" then Ok (mkNetwork "mainnet" 1)
      else if String.eqb s "goerli" then Ok (mkNetwork "goerli" 5)
      else if String.eqb s "matic" then Ok (mkNetwork "matic" 137)
      else if String.eqb s "matic-mumbai" then Ok (mkNetwork "matic-mumbai" 80001)
      else Throw (ArgumentError "unknown network" "network" (Some s))
  | NwChainId c =>
      if (c =? 1)%Z then Ok (mkNetwork "mainnet" 1)
      else if (c =? 5)%Z then Ok (mkNetwork "goerli" 5)
      else if (c =? 137)%Z then Ok (mkNetwork "matic" 137)
      else if (c =? 80001)%Z then Ok (mkNetwork "matic-mumbai" 80001)
      else if (0 <? c)%Z then Ok (mkNetwork "unknown" c)
      else Throw (ArgumentError "invalid chainId" "network" None)
  | NwObject n => Ok n
  end.

(** Splits a string at the first character that satisfies [stop]. *)
Fixpoint split_at (stop : ascii → bool) (s : string) : string * string :=
  match s with
  | EmptyString => (EmptyString, EmptyString)
  | String c rest =>
      if stop c then (EmptyString, s)
      else let '(a, b) := split_at stop rest in (String c a, b)
  end.

Definition is_slash_or_query (c : ascii) : bool :=
  Ascii.eqb c "/"%char || Ascii.eqb c "?"%char.

Definition is_query (c : ascii) : bool := Ascii.eqb c "?"%char.

Definition sample_URL_new (s : string) : result URL :=
  if String.prefix "https://" s then
    let rest := String.substring 8 (String.length s - 8) s in
    let '(h, tail) := split_at is_slash_or_query rest in
    let '(p, _) := split_at is_query tail in
    Ok (mkURL "https:" h h (if String.eqb p "" then "/" else p))
  else Throw (TypeError "Invalid URL").

Definition lower_ascii (c : ascii) : ascii :=
  let n := nat_of_ascii c in
  if (65 <=? n)%nat && (n <=? 90)%nat then ascii_of_nat (n + 32) else c.

Fixpoint lower (s : string) : string :=
  match s with
  | EmptyString => EmptyString
  | String c rest => String (lower_ascii c) (lower rest)
  end.

Definition sample_sign (signer : SignatureV4 AccessKeys) (request : RequestOptions)
    (signingDate : Z) : result RequestOptions :=
  let stamp := pretty signingDate in
  let tag := opt_method request +:+ " " +:+ opt_hostname request +:+ opt_path request
             +:+ " " +:+ text (opt_body request) +:+ " @" +:+ stamp in
  let signed : list (string * string) :=
    (opt_headers request ++
    [ ("X-Amz-Date", stamp);
      ("Authorization",
       "AWS4-HMAC-SHA256 Credential=" +:+ accessKeyId (sig_credentials signer) +:+ "/"
       +:+ sig_region signer +:+ "/" +:+ sig_service signer +:+ ", Tag=" +:+ tag) ] ++
    match sessionToken (sig_credentials signer) with
    | Some t => [("X-Amz-Security-Token", t)]
    | None => []
    end)%list in
  Ok (mkRequestOptions (opt_protocol request) (opt_hostname request) (opt_method request)
        signed (opt_path request) (opt_body request)).

#[local] Instance sample_platform : Platform := {|
  Credentials := AccessKeys;
  Network_from := sample_Network_from;
  URL_new := sample_URL_new;
  TextDecoder_decode := String.string_of_list_byte;
  HttpRequest := RequestOptions;
  HttpRequest_new := fun options => options;
  HttpRequest_headers := opt_headers;
  SignatureV4_sign := sample_sign;
  header_key := lower
|}.

(** A base class that cannot connect to another chain. *)
#[local] Instance sample_base : BaseProvider := {|
  OtherProvider := Z;
  JsonRpcProvider_getProvider := fun _ _ =>
    throw (PlainError "provider cannot connect to target network")
|}.

Definition sample_keys : AccessKeys := mkAccessKeys "AKIDEXAMPLE" "secret" None.

Definition sample_world : World := mkWorld None 1700000000000 [].

Definition sample_props : AwsProviderProps :=
  mkAwsProviderProps (Some "n1") (Some "r1") None None (Some sample_keys).

(** The requests of the examples: one as the factory builds it, and the same
    one with a header a caller set beforehand. *)
Definition sample_request : FetchRequest :=
  getFetchRequest sample_keys "n1" "r1" None.

Definition sample_request_with_header : FetchRequest :=
  setHeader "Content-Type" "application/json" sample_request.

(** The request after one run of the hook on [sample_request_with_header]. *)
Definition sample_signed_request : FetchRequest :=
  match (preflightFunc_run sample_keys "r1" sample_request_with_header sample_world).1 with
  | Ok r => r
  | Throw _ => sample_request_with_header
  end.

Definition sample_world_with_ambient : World :=
  mkWorld (Some sample_keys) 1700000000000 [].

Definition mainnet : Network := mkNetwork "mainnet" 1.

(** The provider [new AwsProvider(sample_props)] returns. *)
Definition sample_provider : AwsProvider :=
  mkAwsProvider
    (mkJsonRpcProvider sample_request mainnet (Some mainnet))
    (mkAws "r1" "n1" "https://n1.ethereum.managedblockchain.r1.amazonaws.com" sample_keys).

(** The same construction with a billing token, and its provider. *)
Definition sample_props_billed : AwsProviderProps :=
  mkAwsProviderProps (Some "n1") (Some "r1") (Some "tok") None (Some sample_keys).

Definition sample_provider_billed : AwsProvider :=
  mkAwsProvider
    (mkJsonRpcProvider (getFetchRequest sample_keys "n1" "r1" (Some "tok")) mainnet (Some mainnet))
    (mkAws "r1" "n1" "https://n1.ethereum.managedblockchain.r1.amazonaws.com?billingToken=tok"
       sample_keys).

(** A later world with the same ambient credentials. *)
Definition sample_world_later : World :=
  mkWorld (Some sample_keys) 1700000060000 [ConfigRead].

(** ** Vocabulary of the statements *)

Definition enumerated_networks : list string :=
  ["mainnet"; "goerli"; "matic"; "matic-mumbai"].

(** The error the directory raises for a network. *)
Definition lookup_error (network : Network) : error :=
  ArgumentError
    (if bool_decide (name network ∈ enumerated_networks)
     then no_community_node else "Unsupported network")
    "network.name" (Some (name network)).

(** [needle] occurs in [hay]. *)
Definition contains (needle hay : string) : Prop :=
  ∃ pre post, hay = pre +:+ needle +:+ post.

Section Vocabulary.
Context `{Platform}.

(** The events a run added to the trace of the world it started in. *)
Definition events_since (w w' : World) : list Event :=
  drop (length (trace w)) (trace w').

(** The world after one more event. *)
Definition after (ev : Event) (w : World) : World :=
  mkWorld (ambient w) (now w) (trace w ++ [ev]).

(** The network the constructor normalises: the given one, or mainnet. *)
Definition requested_network (props : AwsProviderProps) : Networkish :=
  default (NwName "mainnet") (props_network props).

(** The header names, as the request stores them, of a list of entries. *)
Definition stored_names (entries : list (string * string)) : list string :=
  (λ kv, header_key kv.1) <$> entries.

(** The header mapping after the entries were set on it one by one. *)
Definition merge_headers (entries : list (string * string))
    (h : gmap string string) : gmap string string :=
  foldl (λ acc kv, <[header_key kv.1 := kv.2]> acc) h entries.

(** The request the hook hands to the signer, for a parsed URL. *)
Definition canonical_request (u : URL) (httpMethod : string)
    (payload : option (list Byte.byte)) : HttpRequest :=
  HttpRequest_new
    (mkRequestOptions (protocol u) (hostname u) httpMethod [("host", host u)]
       (pathname u) (TextDecoder_decode <$> payload)).

(** The provider the constructor builds from resolved values. *)
Definition provider_of (net : Network) (id region : string) (billingToken : jsstring)
    (creds : Credentials) : AwsProvider :=
  mkAwsProvider
    (mkJsonRpcProvider (getFetchRequest creds id region billingToken) net (Some net))
    (mkAws region id (getAmbNodeUrl id region billingToken) creds).

(** The properties [_getProvider] passes to the constructor. *)
Definition derived_props (this : AwsProvider) (chainId : Z) : AwsProviderProps :=
  mkAwsProviderProps (Some (nodeId (aws this))) (Some (nodeRegion (aws this))) None
    (Some (NwChainId chainId)) (Some (credentials (aws this))).

End Vocabulary.

(** ** The network directory *)

Lemma switch_entry_enumerated (s : string) :
  s ∈ enumerated_networks → (switch_entry s < 4)%nat.
Proof.
  unfold enumerated_networks, switch_entry. rewrite !elem_of_cons, elem_of_nil.
  intros [-> | [-> | [-> | [-> | []]]]]; simpl; lia.
Qed.

Lemma switch_entry_default (s : string) :
  s ∉ enumerated_networks → switch_entry s = 4%nat.
Proof.
  unfold enumerated_networks, switch_entry. rewrite !elem_of_cons, elem_of_nil.
  intros Hs.
  repeat match goal with
         | |- context [String.eqb s ?k] =>
             destruct (String.eqb_spec s k) as [-> | _]; [exfalso; apply Hs; tauto |]
         end.
  reflexivity.
Qed.

(** C1. Looking a network up in the community directory fails for every
    network: with the "no community node found" argument error, which carries
    the network's name, when the name is one of mainnet, goerli, matic and
    matic-mumbai, and with the distinct "Unsupported network" argument error,
    which carries the name too, for every other name. It never returns a node
    location. *)
Theorem getCommunityAmbNodeProps_always_fails (network : Network) :
  (name network ∈ enumerated_networks →
     getCommunityAmbNodeProps network =
       Throw (ArgumentError no_community_node "network.name" (Some (name network))))
  ∧ (name network ∉ enumerated_networks →
     getCommunityAmbNodeProps network =
       Throw (ArgumentError "Unsupported network" "network.name" (Some (name network))))
  ∧ no_community_node ≠ "Unsupported network"
  ∧ (∀ found, getCommunityAmbNodeProps network ≠ Ok found).
Proof.
  assert (Hin : name network ∈ enumerated_networks →
     getCommunityAmbNodeProps network =
       Throw (ArgumentError no_community_node "network.name" (Some (name network)))).
  { intros Hs. apply switch_entry_enumerated in Hs. unfold getCommunityAmbNodeProps.
    destruct (switch_entry (name network)) as [|[|[|[|n]]]]; try reflexivity; lia. }
  assert (Hout : name network ∉ enumerated_networks →
     getCommunityAmbNodeProps network =
       Throw (ArgumentError "Unsupported network" "network.name" (Some (name network)))).
  { intros Hs. unfold getCommunityAmbNodeProps.
    rewrite (switch_entry_default _ Hs). reflexivity. }
  split; [exact Hin |]. split; [exact Hout |]. split; [discriminate |].
  intros found Hfound.
  destruct (decide (name network ∈ enumerated_networks)) as [Hs | Hs].
  - rewrite (Hin Hs) in Hfound. discriminate.
  - rewrite (Hout Hs) in Hfound. discriminate.
Qed.

(** ** The endpoint builder *)

Lemma truthy_Some (s : string) : truthy (Some s) = true ↔ s ≠ "".
Proof.
  unfold truthy. destruct (String.eqb_spec s "") as [-> | Hs]; simpl.
  - split; [discriminate | intros Hs; contradiction].
  - split; [intros _; exact Hs | reflexivity].
Qed.

Lemma truthy_text (v : jsstring) : truthy v = true → v = Some (text v) ∧ text v ≠ "".
Proof.
  destruct v as [s |]; [| discriminate].
  intros Hs. apply truthy_Some in Hs. split; [reflexivity | exact Hs].
Qed.

Lemma append_fixed (s t : string) : s +:+ t = s → t = "".
Proof.
  induction s as [| c s IH]; simpl; [intros Ht; exact Ht |].
  intros Hs. injection Hs as Hs. apply IH, Hs.
Qed.

Lemma getAmbNodeUrl_token (nodeId nodeRegion tok : string) :
  tok ≠ "" →
  getAmbNodeUrl nodeId nodeRegion (Some tok) =
    getAmbNodeUrl nodeId nodeRegion None +:+ "?billingToken=" +:+ tok.
Proof.
  intros Htok. unfold getAmbNodeUrl. apply truthy_Some in Htok. rewrite Htok.
  reflexivity.
Qed.

Example getAmbNodeUrl_plain :
  getAmbNodeUrl "abc" "us-east-1" None =
    "https://abc.ethereum.managedblockchain.us-east-1.amazonaws.com".
Proof. reflexivity. Qed.

Example getAmbNodeUrl_billed :
  getAmbNodeUrl "abc" "us-east-1" (Some "tok") =
    "https://abc.ethereum.managedblockchain.us-east-1.amazonaws.com?billingToken=tok".
Proof. reflexivity. Qed.

(** The claim of C4 fails for a token that is supplied and empty: the builder
    returns the bare URL, not the URL followed by "?billingToken=". *)
Lemma getAmbNodeUrl_empty_token_not_appended :
  getAmbNodeUrl "abc" "us-east-1" (Some "") =
    "https://abc.ethereum.managedblockchain.us-east-1.amazonaws.com"
  ∧ getAmbNodeUrl "abc" "us-east-1" (Some "") ≠
      getAmbNodeUrl "abc" "us-east-1" None +:+ "?billingToken=" +:+ "".
Proof. split; [reflexivity | discriminate]. Qed.

(** C4, as the code has it. For every node id and region the endpoint
    builder returns exactly "https://" + nodeId +
    ".ethereum.managedblockchain." + nodeRegion + ".amazonaws.com" when no
    billing token is given, and for every non-empty billing token that same
    URL followed by "?billingToken=" and the token, verbatim and once. *)
Theorem getAmbNodeUrl_template (nodeId nodeRegion tok : string) :
  tok ≠ "" →
  getAmbNodeUrl nodeId nodeRegion None =
    "https://" +:+ nodeId +:+ ".ethereum.managedblockchain." +:+ nodeRegion +:+ ".amazonaws.com"
  ∧ getAmbNodeUrl nodeId nodeRegion (Some tok) =
      ("https://" +:+ nodeId +:+ ".ethereum.managedblockchain." +:+ nodeRegion +:+ ".amazonaws.com")
      +:+ "?billingToken=" +:+ tok.
Proof.
  intros Htok. split; [reflexivity |].
  rewrite (getAmbNodeUrl_token _ _ _ Htok). reflexivity.
Qed.

(** C9. The endpoint builder tests the billing token for truthiness: with the
    empty string as token it returns the URL it returns without a token, with
    no "?billingToken=" suffix; the result differs from that URL exactly when
    the token is a non-empty string. *)
Theorem getAmbNodeUrl_tests_truthiness (nodeId nodeRegion : string) (billingToken : jsstring) :
  getAmbNodeUrl nodeId nodeRegion (Some "") = getAmbNodeUrl nodeId nodeRegion None
  ∧ getAmbNodeUrl nodeId nodeRegion (Some "") =
      "https://" +:+ nodeId +:+ ".ethereum.managedblockchain." +:+ nodeRegion +:+ ".amazonaws.com"
  ∧ (getAmbNodeUrl nodeId nodeRegion billingToken ≠ getAmbNodeUrl nodeId nodeRegion None
     ↔ ∃ tok, billingToken = Some tok ∧ tok ≠ "").
Proof.
  split; [reflexivity |]. split; [reflexivity |]. split.
  - intros Hdiff. destruct billingToken as [tok |]; [| contradiction].
    exists tok. split; [reflexivity |]. intros ->. apply Hdiff. reflexivity.
  - intros (tok & -> & Htok) Heq.
    rewrite (getAmbNodeUrl_token _ _ _ Htok) in Heq.
    apply append_fixed in Heq. discriminate.
Qed.

(** ** The constructor *)

Lemma getCommunityAmbNodeProps_throws (network : Network) :
  getCommunityAmbNodeProps network = Throw (lookup_error network).
Proof.
  unfold lookup_error. case_bool_decide as Hs.
  - apply switch_entry_enumerated in Hs. unfold getCommunityAmbNodeProps.
    destruct (switch_entry (name network)) as [|[|[|[|n]]]]; try reflexivity; lia.
  - unfold getCommunityAmbNodeProps. rewrite (switch_entry_default _ Hs). reflexivity.
Qed.

Section Constructor.
Context `{Platform}.

Implicit Types (props : AwsProviderProps) (w : World) (net : Network).

Ltac run := unfold mbind, M_bind, mret, M_ret, lift, throw; simpl.

Lemma AwsProvider_new_unknown_network props w e :
  Network_from (requested_network props) = Throw e →
  AwsProvider_new props w = (Throw e, w).
Proof.
  unfold requested_network, AwsProvider_new. intros Hnet. run. rewrite Hnet. reflexivity.
Qed.

Lemma AwsProvider_new_nodeId_required props w net :
  Network_from (requested_network props) = Ok net →
  truthy (props_nodeId props) = false →
  truthy (props_nodeRegion props) = true →
  AwsProvider_new props w =
    (Throw (ArgumentError "nodeId required with nodeRegion" "nodeId" (props_nodeId props)), w).
Proof.
  unfold requested_network, AwsProvider_new. intros Hnet Hid Hregion. run.
  rewrite Hnet, Hid, Hregion. reflexivity.
Qed.

Lemma AwsProvider_new_nodeRegion_required props w net :
  Network_from (requested_network props) = Ok net →
  truthy (props_nodeId props) = true →
  truthy (props_nodeRegion props) = false →
  AwsProvider_new props w =
    (Throw (ArgumentError "nodeRegion required with nodeId" "nodeRegion" (props_nodeRegion props)), w).
Proof.
  unfold requested_network, AwsProvider_new. intros Hnet Hid Hregion. run.
  rewrite Hnet, Hid, Hregion. reflexivity.
Qed.

Lemma AwsProvider_new_lookup props w net :
  Network_from (requested_network props) = Ok net →
  truthy (props_nodeId props) = false →
  truthy (props_nodeRegion props) = false →
  AwsProvider_new props w = (Throw (lookup_error net), after (DirectoryLookup net) w).
Proof.
  unfold requested_network, AwsProvider_new. intros Hnet Hid Hregion. run.
  rewrite Hnet, Hid, Hregion. simpl.
  rewrite getCommunityAmbNodeProps_throws. reflexivity.
Qed.

Lemma AwsProvider_new_explicit props w net creds :
  Network_from (requested_network props) = Ok net →
  truthy (props_nodeId props) = true →
  truthy (props_nodeRegion props) = true →
  props_credentials props = Some creds →
  AwsProvider_new props w =
    (Ok (provider_of net (text (props_nodeId props)) (text (props_nodeRegion props))
           (props_billingToken props) creds), w).
Proof.
  unfold requested_network, AwsProvider_new. intros Hnet Hid Hregion Hcreds. run.
  rewrite Hnet, Hid, Hregion, Hcreds. reflexivity.
Qed.

Lemma AwsProvider_new_ambient props w net creds :
  Network_from (requested_network props) = Ok net →
  truthy (props_nodeId props) = true →
  truthy (props_nodeRegion props) = true →
  props_credentials props = None →
  ambient w = Some creds →
  AwsProvider_new props w =
    (Ok (provider_of net (text (props_nodeId props)) (text (props_nodeRegion props))
           (props_billingToken props) creds), after ConfigRead w).
Proof.
  unfold requested_network, AwsProvider_new. intros Hnet Hid Hregion Hcreds Hamb. run.
  rewrite Hnet, Hid, Hregion, Hcreds. simpl.
  unfold getDefaultAwsCredentials, aws_Config_credentials, emit, read_ambient, after. run.
  rewrite Hamb. reflexivity.
Qed.

Lemma AwsProvider_new_no_credentials props w net :
  Network_from (requested_network props) = Ok net →
  truthy (props_nodeId props) = true →
  truthy (props_nodeRegion props) = true →
  props_credentials props = None →
  ambient w = None →
  AwsProvider_new props w = (Throw (PlainError credentials_not_found), after ConfigRead w).
Proof.
  unfold requested_network, AwsProvider_new. intros Hnet Hid Hregion Hcreds Hamb. run.
  rewrite Hnet, Hid, Hregion, Hcreds. simpl.
  unfold getDefaultAwsCredentials, aws_Config_credentials, emit, read_ambient, after. run.
  rewrite Hamb. reflexivity.
Qed.

End Constructor.

Section ConstructorClaims.
Context `{Platform}.

Implicit Types (props : AwsProviderProps) (w : World) (net : Network).

Lemma events_since_same w : events_since w w = [].
Proof. unfold events_since. apply drop_all. Qed.

Lemma events_since_after ev w : events_since w (after ev w) = [ev].
Proof. unfold events_since, after. simpl. apply drop_app_length. Qed.

(** C2. Whatever the other inputs are, the constructor rejects mismatched
    node coordinates before it looks anything up or resolves credentials: with
    nodeId absent (undefined or empty) and nodeRegion present it raises, and
    leaves the world as it found it; the error is the argument error "nodeId
    required with nodeRegion" whenever the network was normalised, and the
    error of the normalisation otherwise. The same holds with the roles
    exchanged and "nodeRegion required with nodeId". The directory is
    consulted, for the normalised (possibly defaulted) network, exactly when
    both coordinates are absent. *)
Theorem constructor_rejects_mismatched_coordinates props w :
  (truthy (props_nodeId props) = false → truthy (props_nodeRegion props) = true →
     ∃ e, AwsProvider_new props w = (Throw e, w)
          ∧ (∀ net, Network_from (requested_network props) = Ok net →
               e = ArgumentError "nodeId required with nodeRegion" "nodeId" (props_nodeId props))
          ∧ (∀ e0, Network_from (requested_network props) = Throw e0 → e = e0))
  ∧ (truthy (props_nodeId props) = true → truthy (props_nodeRegion props) = false →
     ∃ e, AwsProvider_new props w = (Throw e, w)
          ∧ (∀ net, Network_from (requested_network props) = Ok net →
               e = ArgumentError "nodeRegion required with nodeId" "nodeRegion" (props_nodeRegion props))
          ∧ (∀ e0, Network_from (requested_network props) = Throw e0 → e = e0))
  ∧ (∀ net, DirectoryLookup net ∈ events_since w (AwsProvider_new props w).2
            ↔ Network_from (requested_network props) = Ok net
              ∧ truthy (props_nodeId props) = false
              ∧ truthy (props_nodeRegion props) = false).
Proof.
  split; [| split].
  - intros Hid Hregion.
    destruct (Network_from (requested_network props)) as [net | e0] eqn:Hnet.
    + eexists. split; [apply (AwsProvider_new_nodeId_required _ _ _ Hnet Hid Hregion) |].
      split; [reflexivity | discriminate].
    + exists e0. split; [apply (AwsProvider_new_unknown_network _ _ _ Hnet) |].
      split; [discriminate | congruence].
  - intros Hid Hregion.
    destruct (Network_from (requested_network props)) as [net | e0] eqn:Hnet.
    + eexists. split; [apply (AwsProvider_new_nodeRegion_required _ _ _ Hnet Hid Hregion) |].
      split; [reflexivity | discriminate].
    + exists e0. split; [apply (AwsProvider_new_unknown_network _ _ _ Hnet) |].
      split; [discriminate | congruence].
  - intros net'.
    destruct (Network_from (requested_network props)) as [net | e0] eqn:Hnet.
    2: { rewrite (AwsProvider_new_unknown_network _ _ _ Hnet). simpl.
         rewrite events_since_same, elem_of_nil. split; [tauto | intros [? _]; discriminate]. }
    destruct (truthy (props_nodeId props)) eqn:Hid;
      destruct (truthy (props_nodeRegion props)) eqn:Hregion.
    + destruct (props_credentials props) as [creds |] eqn:Hcreds.
      * rewrite (AwsProvider_new_explicit _ _ _ _ Hnet Hid Hregion Hcreds). simpl.
        rewrite events_since_same, elem_of_nil. split; [tauto | intros (_ & ? & _); discriminate].
      * destruct (ambient w) as [creds |] eqn:Hamb.
        -- rewrite (AwsProvider_new_ambient _ _ _ _ Hnet Hid Hregion Hcreds Hamb). simpl.
           rewrite events_since_after, list_elem_of_singleton.
           split; [discriminate | intros (_ & ? & _); discriminate].
        -- rewrite (AwsProvider_new_no_credentials _ _ _ Hnet Hid Hregion Hcreds Hamb). simpl.
           rewrite events_since_after, list_elem_of_singleton.
           split; [discriminate | intros (_ & ? & _); discriminate].
    + rewrite (AwsProvider_new_nodeRegion_required _ _ _ Hnet Hid Hregion). simpl.
      rewrite events_since_same, elem_of_nil. split; [tauto | intros (_ & ? & _); discriminate].
    + rewrite (AwsProvider_new_nodeId_required _ _ _ Hnet Hid Hregion). simpl.
      rewrite events_since_same, elem_of_nil. split; [tauto | intros (_ & _ & ?); discriminate].
    + rewrite (AwsProvider_new_lookup _ _ _ Hnet Hid Hregion). simpl.
      rewrite events_since_after, list_elem_of_singleton.
      split; [intros [= ->]; done | intros ([= ->] & _); done].
Qed.

Lemma getDefaultAwsCredentials_run w :
  getDefaultAwsCredentials w =
    (match ambient w with
     | Some creds => Ok creds
     | None => Throw (PlainError credentials_not_found)
     end, after ConfigRead w).
Proof.
  unfold getDefaultAwsCredentials, aws_Config_credentials, emit, read_ambient, after.
  unfold mbind, M_bind, mret, M_ret, throw, lift. simpl.
  destruct (ambient w); reflexivity.
Qed.

(** C3. Credentials given to the constructor are the ones the provider
    holds, whatever they are, and the environment is not read; without them
    the constructor reads the ambient AWS configuration and holds what it
    finds; when it finds nothing, construction fails with the "credentials
    not found" error, whose message ends with the address of the guide on
    configuring the environment. [getDefaultAwsCredentials] by itself reads
    the configuration and returns what it finds or raises that error. *)
Theorem credential_resolution props w net :
  Network_from (requested_network props) = Ok net →
  truthy (props_nodeId props) = true →
  truthy (props_nodeRegion props) = true →
  (∀ creds, props_credentials props = Some creds →
     ∃ p, AwsProvider_new props w = (Ok p, w) ∧ credentials (aws p) = creds)
  ∧ (∀ creds, props_credentials props = None → ambient w = Some creds →
     getDefaultAwsCredentials w = (Ok creds, after ConfigRead w)
     ∧ ∃ p, AwsProvider_new props w = (Ok p, after ConfigRead w) ∧ credentials (aws p) = creds)
  ∧ (props_credentials props = None → ambient w = None →
     getDefaultAwsCredentials w = (Throw (PlainError credentials_not_found), after ConfigRead w)
     ∧ AwsProvider_new props w = (Throw (PlainError credentials_not_found), after ConfigRead w))
  ∧ contains "Credentials not found" credentials_not_found
  ∧ contains credentials_guide credentials_not_found.
Proof.
  intros Hnet Hid Hregion. split; [| split; [| split; [| split]]].
  - intros creds Hcreds. eexists. split;
      [apply (AwsProvider_new_explicit _ _ _ _ Hnet Hid Hregion Hcreds) | reflexivity].
  - intros creds Hcreds Hamb. split.
    + rewrite getDefaultAwsCredentials_run, Hamb. reflexivity.
    + eexists. split;
        [apply (AwsProvider_new_ambient _ _ _ _ Hnet Hid Hregion Hcreds Hamb) | reflexivity].
  - intros Hcreds Hamb. split.
    + rewrite getDefaultAwsCredentials_run, Hamb. reflexivity.
    + apply (AwsProvider_new_no_credentials _ _ _ Hnet Hid Hregion Hcreds Hamb).
  - exists "AWS ", " by the AWS SDK. To learn how to set AWS credentials for your environment, please visit https://docs.aws.amazon.com/sdk-for-javascript/v2/developer-guide/setting-credentials-node.html".
    reflexivity.
  - exists "AWS Credentials not found by the AWS SDK. To learn how to set AWS credentials for your environment, please visit ", "".
    reflexivity.
Qed.

(** C8. With a present node id and region, explicit credentials and no
    network, construction succeeds and touches nothing in the world; the
    provider's network is the normalisation of "mainnet", pinned as static,
    and its [aws] attribute holds the node id, the region and the credentials
    that were given and the URL the endpoint builder returns for them, which
    is also the URL of the request template. *)
Theorem constructor_records_state (id region : string) (billingToken : jsstring)
    (creds : Credentials) w net :
  id ≠ "" → region ≠ "" →
  Network_from (NwName "mainnet") = Ok net →
  ∃ p, AwsProvider_new (mkAwsProviderProps (Some id) (Some region) billingToken None (Some creds)) w
         = (Ok p, w)
       ∧ network (base p) = net
       ∧ staticNetwork (base p) = Some net
       ∧ nodeId (aws p) = id
       ∧ nodeRegion (aws p) = region
       ∧ credentials (aws p) = creds
       ∧ nodeHttpEndpoint (aws p) = getAmbNodeUrl id region billingToken
       ∧ url (connection (base p)) = nodeHttpEndpoint (aws p)
       ∧ (billingToken = None →
            nodeHttpEndpoint (aws p) =
              "https://" +:+ id +:+ ".ethereum.managedblockchain." +:+ region +:+ ".amazonaws.com")
       ∧ AwsProvider_new
           (mkAwsProviderProps (Some id) (Some region) billingToken (Some (NwName "mainnet"))
              (Some creds)) w = (Ok p, w).
Proof.
  intros Hid Hregion Hnet. apply truthy_Some in Hid, Hregion.
  eexists. split.
  - apply (AwsProvider_new_explicit _ w net creds); [exact Hnet | exact Hid | exact Hregion | reflexivity].
  - simpl. repeat split; try reflexivity.
    + intros ->. reflexivity.
    + apply (AwsProvider_new_explicit
               (mkAwsProviderProps (Some id) (Some region) billingToken
                  (Some (NwName "mainnet")) (Some creds)) w net creds);
        [exact Hnet | exact Hid | exact Hregion | reflexivity].
Qed.

End ConstructorClaims.

(** ** Deriving a provider for another chain *)

Section Derivation.
Context `{BaseProvider}.

Implicit Types (props : AwsProviderProps) (w : World) (this : AwsProvider).

(** A provider the constructor returned has a present node id and region. *)
Lemma AwsProvider_new_coordinates props w w' this :
  AwsProvider_new props w = (Ok this, w') →
  nodeId (aws this) ≠ "" ∧ nodeRegion (aws this) ≠ "".
Proof.
  destruct (Network_from (requested_network props)) as [net | e0] eqn:Hnet.
  2: { rewrite (AwsProvider_new_unknown_network _ _ _ Hnet). discriminate. }
  destruct (truthy (props_nodeId props)) eqn:Hid;
    destruct (truthy (props_nodeRegion props)) eqn:Hregion.
  - destruct (truthy_text _ Hid) as [_ Hid'].
    destruct (truthy_text _ Hregion) as [_ Hregion'].
    destruct (props_credentials props) as [creds |] eqn:Hcreds.
    + rewrite (AwsProvider_new_explicit _ _ _ _ Hnet Hid Hregion Hcreds).
      intros [= <- _]. split; assumption.
    + destruct (ambient w) as [creds |] eqn:Hamb.
      * rewrite (AwsProvider_new_ambient _ _ _ _ Hnet Hid Hregion Hcreds Hamb).
        intros [= <- _]. split; assumption.
      * rewrite (AwsProvider_new_no_credentials _ _ _ Hnet Hid Hregion Hcreds Hamb).
        discriminate.
  - rewrite (AwsProvider_new_nodeRegion_required _ _ _ Hnet Hid Hregion). discriminate.
  - rewrite (AwsProvider_new_nodeId_required _ _ _ Hnet Hid Hregion). discriminate.
  - rewrite (AwsProvider_new_lookup _ _ _ Hnet Hid Hregion). discriminate.
Qed.

Lemma getProvider_run this (chainId : Z) w :
  _getProvider this chainId w =
    match AwsProvider_new (derived_props this chainId) w with
    | (Ok p, w') => (Ok (IsAwsProvider p), w')
    | (Throw e, w') =>
        let out := JsonRpcProvider_getProvider (base this) chainId (after (ConsoleError e) w') in
        (IsOtherProvider <$> out.1, out.2)
    end.
Proof.
  unfold _getProvider, catching, derived_props, console_error, emit, after.
  unfold mbind, M_bind, mret, M_ret. simpl.
  destruct (AwsProvider_new _ w) as [[p | e] w']; simpl; [reflexivity |].
  destruct (JsonRpcProvider_getProvider _ _ _) as [[b | e'] w'']; reflexivity.
Qed.

(** C7. On a provider the constructor returned, [_getProvider(chainId)]
    returns, when the chain id normalises to a network, a new provider with
    the same node id, region and credentials whose network is that network,
    and logs nothing. When constructing the derived provider throws, which
    happens when the chain id does not normalise, the error is written to the
    console and the answer is the answer of the base class's
    [_getProvider(chainId)], be it a provider or an exception. *)
Theorem getProvider_derives_or_falls_back props (w0 w1 : World) this (chainId : Z) w :
  AwsProvider_new props w0 = (Ok this, w1) →
  (∀ net, Network_from (NwChainId chainId) = Ok net →
     ∃ p, _getProvider this chainId w = (Ok (IsAwsProvider p), w)
          ∧ nodeId (aws p) = nodeId (aws this)
          ∧ nodeRegion (aws p) = nodeRegion (aws this)
          ∧ credentials (aws p) = credentials (aws this)
          ∧ network (base p) = net)
  ∧ (∀ e w', AwsProvider_new (derived_props this chainId) w = (Throw e, w') →
     ∀ r w'', JsonRpcProvider_getProvider (base this) chainId (after (ConsoleError e) w') = (r, w'') →
     _getProvider this chainId w = (IsOtherProvider <$> r, w''))
  ∧ (∀ e, Network_from (NwChainId chainId) = Throw e →
     AwsProvider_new (derived_props this chainId) w = (Throw e, w)).
Proof.
  intros Hthis. destruct (AwsProvider_new_coordinates _ _ _ _ Hthis) as [Hid Hregion].
  apply truthy_Some in Hid, Hregion. split; [| split].
  - intros net Hnet. eexists. split.
    + rewrite getProvider_run.
      rewrite (AwsProvider_new_explicit (derived_props this chainId) w net (credentials (aws this)));
        [reflexivity | exact Hnet | exact Hid | exact Hregion | reflexivity].
    + simpl. repeat split; reflexivity.
  - intros e w' Hnew r w'' Hbase. rewrite getProvider_run, Hnew. simpl.
    rewrite Hbase. reflexivity.
  - intros e Hnet. apply AwsProvider_new_unknown_network. exact Hnet.
Qed.

End Derivation.

(** ** The preflight hook *)

Section Preflight.
Context `{Platform}.

Implicit Types (r : FetchRequest) (w : World) (entries : list (string * string))
  (h : gmap string string) (creds : Credentials) (region : string).

Lemma merge_headers_frame entries h (k : string) :
  k ∉ stored_names entries → merge_headers entries h !! k = h !! k.
Proof.
  revert h. induction entries as [| kv entries IH]; intros h Hk; [reflexivity |].
  unfold stored_names in Hk. rewrite fmap_cons, not_elem_of_cons in Hk.
  destruct Hk as [Hne Hk]. unfold merge_headers. simpl.
  fold (merge_headers entries (<[header_key kv.1 := kv.2]> h)).
  rewrite (IH _ Hk). apply lookup_insert_ne. congruence.
Qed.

Lemma merge_headers_hit entries h (k v : string) :
  (k, v) ∈ entries → NoDup (stored_names entries) →
  merge_headers entries h !! header_key k = Some v.
Proof.
  revert h. induction entries as [| kv entries IH]; intros h Hin Hnodup.
  - apply elem_of_nil in Hin. contradiction.
  - unfold stored_names in Hnodup. rewrite fmap_cons in Hnodup.
    apply NoDup_cons in Hnodup as [Hfresh Hnodup].
    unfold merge_headers. simpl.
    fold (merge_headers entries (<[header_key kv.1 := kv.2]> h)).
    apply elem_of_cons in Hin as [<- | Hin].
    + rewrite (merge_headers_frame _ _ _ Hfresh). apply lookup_insert_eq.
    + apply IH; assumption.
Qed.

Lemma merge_headers_signed entries h (k : string) :
  k ∈ stored_names entries →
  ∃ k0 v, (k0, v) ∈ entries ∧ header_key k0 = k ∧ merge_headers entries h !! k = Some v.
Proof.
  revert h. induction entries as [| kv entries IH]; intros h Hk.
  - apply elem_of_nil in Hk. contradiction.
  - unfold merge_headers. simpl.
    fold (merge_headers entries (<[header_key kv.1 := kv.2]> h)).
    destruct (decide (k ∈ stored_names entries)) as [Hlater | Hlater].
    + destruct (IH (<[header_key kv.1 := kv.2]> h) Hlater) as (k0 & v & Hin & Hkey & Hget).
      exists k0, v. split; [apply elem_of_cons; right; exact Hin |]. split; assumption.
    + unfold stored_names in Hk. rewrite fmap_cons in Hk.
      apply elem_of_cons in Hk as [-> | Hk]; [| contradiction].
      exists kv.1, kv.2. split; [apply elem_of_cons; left; destruct kv; reflexivity |].
      split; [reflexivity |].
      rewrite (merge_headers_frame _ _ _ Hlater). apply lookup_insert_eq.
Qed.

Lemma setHeader_fold entries r :
  let r' := foldl (λ acc kv, setHeader kv.1 kv.2 acc) r entries in
  url r' = url r ∧ method r' = method r ∧ body r' = body r
  ∧ preflightFunc r' = preflightFunc r
  ∧ headers r' = merge_headers entries (headers r).
Proof.
  revert r. induction entries as [| kv entries IH]; intros r; simpl.
  - repeat split; reflexivity.
  - destruct (IH (setHeader kv.1 kv.2 r)) as (Hu & Hm & Hb & Hp & Hh).
    simpl in *. rewrite Hu, Hm, Hb, Hp, Hh. repeat split; reflexivity.
Qed.

(** The signing step reads the clock, changes nothing, and depends on the
    request only through its URL, method and body. *)
Lemma signedAwsHeaders_run creds region r w :
  signedAwsHeaders creds region r w =
    (u ← URL_new (url r);
     signed ← SignatureV4_sign (mkSignatureV4 creds region "managedblockchain" Sha256)
                (canonical_request u (method r) (body r)) (now w);
     Ok (HttpRequest_headers signed), w).
Proof.
  unfold signedAwsHeaders, canonical_request, Date_new.
  unfold mbind, M_bind, mret, M_ret, lift, result_bind. simpl.
  destruct (URL_new (url r)) as [u | e]; [| reflexivity].
  destruct (SignatureV4_sign _ _ _) as [signed | e]; reflexivity.
Qed.

Lemma preflightFunc_run_inv creds region r w r' w' :
  preflightFunc_run creds region r w = (Ok r', w') →
  ∃ entries, signedAwsHeaders creds region r w = (Ok entries, w)
             ∧ w' = w
             ∧ r' = foldl (λ acc kv, setHeader kv.1 kv.2 acc) r entries.
Proof.
  unfold preflightFunc_run. unfold mbind at 1, M_bind at 1.
  rewrite signedAwsHeaders_run.
  destruct (u ← URL_new (url r); _) as [entries | e]; [| discriminate].
  unfold mret, M_ret. intros [= <- <-]. exists entries. repeat split; reflexivity.
Qed.

Lemma signedAwsHeaders_descriptor creds region r1 r2 w1 w2 :
  url r1 = url r2 → method r1 = method r2 → body r1 = body r2 → now w1 = now w2 →
  (signedAwsHeaders creds region r1 w1).1 = (signedAwsHeaders creds region r2 w2).1.
Proof.
  intros Hu Hm Hb Hn. rewrite !signedAwsHeaders_run. simpl.
  rewrite Hu, Hm, Hb, Hn. reflexivity.
Qed.

(** C5. The hook that [getFetchRequest] installs changes only headers the
    signing step produced. When it returns, the URL, method, body and hook of
    the request are as before; every header whose stored name is not the name
    of a signed header has exactly its prior value; every name the signer
    returned holds a value the signer returned for it, and holds the signer's
    value for that very entry when the signed names are distinct. Running the
    hook a second time signs the same descriptor again, leaves every header
    outside the two signed sets as it was before the first run, and gives the
    signed names of the second run the second run's values. The world is not
    changed by the hook. *)
Theorem preflight_changes_only_signed_headers creds region r w r1 w1 :
  preflightFunc_run creds region r w = (Ok r1, w1) →
  (∀ id billingToken,
     preflight (getFetchRequest creds id region billingToken) =
       preflightFunc_run creds region (getFetchRequest creds id region billingToken))
  ∧ ∃ entries,
      signedAwsHeaders creds region r w = (Ok entries, w)
      ∧ w1 = w
      ∧ url r1 = url r ∧ method r1 = method r ∧ body r1 = body r
      ∧ preflightFunc r1 = preflightFunc r
      ∧ (∀ k, k ∉ stored_names entries → headers r1 !! k = headers r !! k)
      ∧ (∀ k, k ∈ stored_names entries →
           ∃ k0 v, (k0, v) ∈ entries ∧ header_key k0 = k ∧ headers r1 !! k = Some v)
      ∧ (∀ k v, (k, v) ∈ entries → NoDup (stored_names entries) →
           headers r1 !! header_key k = Some v)
      ∧ (∀ w' r2 w2, preflightFunc_run creds region r1 w' = (Ok r2, w2) →
           ∃ entries', signedAwsHeaders creds region r w' = (Ok entries', w')
             ∧ w2 = w'
             ∧ (∀ k, k ∉ stored_names entries → k ∉ stored_names entries' →
                  headers r2 !! k = headers r !! k)
             ∧ (∀ k, k ∉ stored_names entries' → headers r2 !! k = headers r1 !! k)
             ∧ (∀ k, k ∈ stored_names entries' →
                  ∃ k0 v, (k0, v) ∈ entries' ∧ header_key k0 = k ∧ headers r2 !! k = Some v)).
Proof.
  intros Hrun. split; [reflexivity |].
  destruct (preflightFunc_run_inv _ _ _ _ _ _ Hrun) as (entries & Hsigned & -> & ->).
  destruct (setHeader_fold entries r) as (Hu & Hm & Hb & Hp & Hh). simpl in *.
  exists entries. split; [exact Hsigned |]. split; [reflexivity |].
  do 4 (split; [assumption |]).
  split; [| split; [| split]].
  - intros k Hk. rewrite Hh. apply merge_headers_frame, Hk.
  - intros k Hk. rewrite Hh. apply merge_headers_signed, Hk.
  - intros k v Hin Hnodup. rewrite Hh. apply merge_headers_hit; assumption.
  - intros w' r2 w2 Hrun2.
    destruct (preflightFunc_run_inv _ _ _ _ _ _ Hrun2) as (entries' & Hsigned' & -> & ->).
    destruct (setHeader_fold entries' (foldl (λ acc kv, setHeader kv.1 kv.2 acc) r entries))
      as (_ & _ & _ & _ & Hh'). simpl in Hh'.
    exists entries'. split.
    { pose proof (signedAwsHeaders_descriptor creds region r
        (foldl (λ acc kv, setHeader kv.1 kv.2 acc) r entries) w' w'
        (eq_sym Hu) (eq_sym Hm) (eq_sym Hb) eq_refl) as Hsame.
      rewrite Hsigned' in Hsame. simpl in Hsame.
      rewrite signedAwsHeaders_run in Hsame |- *. simpl in Hsame. rewrite Hsame. reflexivity. }
    split; [reflexivity |]. split; [| split].
    + intros k Hk Hk'. rewrite Hh', Hh.
      rewrite (merge_headers_frame _ _ _ Hk'). apply merge_headers_frame, Hk.
    + intros k Hk'. rewrite Hh'. apply merge_headers_frame, Hk'.
    + intros k Hk'. rewrite Hh'. apply merge_headers_signed, Hk'.
Qed.

(** C10. What the hook signs does not depend on the headers already on the
    request. The request handed to the signer is built from the parsed URL
    (protocol, hostname, path, and the host header), the method and the body;
    two requests with the same URL, method and body, signed with the same
    credentials and region at the same clock reading, get the same signed
    header entries, and after the hook their headers agree on every signed
    name. *)
Theorem signing_ignores_existing_headers creds region r1 r2 w1 w2 :
  url r1 = url r2 → method r1 = method r2 → body r1 = body r2 → now w1 = now w2 →
  (signedAwsHeaders creds region r1 w1).1 = (signedAwsHeaders creds region r2 w2).1
  ∧ (signedAwsHeaders creds region r1 w1).1 =
      (u ← URL_new (url r1);
       signed ← SignatureV4_sign (mkSignatureV4 creds region "managedblockchain" Sha256)
                  (canonical_request u (method r1) (body r1)) (now w1);
       Ok (HttpRequest_headers signed))
  ∧ (∀ r1' w1', preflightFunc_run creds region r1 w1 = (Ok r1', w1') →
       ∃ r2' entries,
         preflightFunc_run creds region r2 w2 = (Ok r2', w2)
         ∧ signedAwsHeaders creds region r1 w1 = (Ok entries, w1)
         ∧ signedAwsHeaders creds region r2 w2 = (Ok entries, w2)
         ∧ ∀ k, k ∈ stored_names entries → headers r1' !! k = headers r2' !! k).
Proof.
  intros Hu Hm Hb Hn.
  pose proof (signedAwsHeaders_descriptor creds region r1 r2 w1 w2 Hu Hm Hb Hn) as Hsame.
  split; [exact Hsame |]. split; [rewrite signedAwsHeaders_run; reflexivity |].
  intros r1' w1' Hrun.
  destruct (preflightFunc_run_inv _ _ _ _ _ _ Hrun) as (entries & Hsigned & -> & ->).
  rewrite Hsigned in Hsame. simpl in Hsame.
  assert (Hsigned2 : signedAwsHeaders creds region r2 w2 = (Ok entries, w2)).
  { rewrite signedAwsHeaders_run in Hsame |- *. simpl in Hsame. rewrite <- Hsame. reflexivity. }
  exists (foldl (λ acc kv, setHeader kv.1 kv.2 acc) r2 entries), entries.
  split; [| split; [exact Hsigned | split; [exact Hsigned2 |]]].
  - unfold preflightFunc_run. unfold mbind, M_bind. rewrite Hsigned2. reflexivity.
  - intros k Hk.
    destruct (setHeader_fold entries r1) as (_ & _ & _ & _ & Hh1).
    destruct (setHeader_fold entries r2) as (_ & _ & _ & _ & Hh2).
    simpl in Hh1, Hh2. rewrite Hh1, Hh2. clear Hh1 Hh2 Hsigned Hsigned2 Hsame Hrun.
    generalize (headers r1), (headers r2). clear r1 r2 Hu Hm Hb.
    induction entries as [| kv entries IH]; intros h1 h2.
    + apply elem_of_nil in Hk. contradiction.
    + unfold merge_headers. simpl.
      fold (merge_headers entries (<[header_key kv.1 := kv.2]> h1)).
      fold (merge_headers entries (<[header_key kv.1 := kv.2]> h2)).
      destruct (decide (k ∈ stored_names entries)) as [Hlater | Hlater].
      * apply IH, Hlater.
      * unfold stored_names in Hk. rewrite fmap_cons in Hk.
        apply elem_of_cons in Hk as [-> | Hk]; [| contradiction].
        rewrite !(merge_headers_frame _ _ _ Hlater), !lookup_insert_eq. reflexivity.
Qed.

End Preflight.

(** ** Further properties of the constructor *)

Section ConstructorOutcomes.
Context `{Platform}.

Implicit Types (props : AwsProviderProps) (w : World) (net : Network).

(** The constructor, outcome by outcome. *)
Lemma AwsProvider_new_cases props w :
  AwsProvider_new props w =
    match Network_from (requested_network props) with
    | Throw e => (Throw e, w)
    | Ok net =>
        match truthy (props_nodeId props), truthy (props_nodeRegion props) with
        | false, true =>
            (Throw (ArgumentError "nodeId required with nodeRegion" "nodeId"
                      (props_nodeId props)), w)
        | true, false =>
            (Throw (ArgumentError "nodeRegion required with nodeId" "nodeRegion"
                      (props_nodeRegion props)), w)
        | false, false => (Throw (lookup_error net), after (DirectoryLookup net) w)
        | true, true =>
            match props_credentials props, ambient w with
            | Some creds, _ =>
                (Ok (provider_of net (text (props_nodeId props))
                       (text (props_nodeRegion props)) (props_billingToken props) creds), w)
            | None, Some creds =>
                (Ok (provider_of net (text (props_nodeId props))
                       (text (props_nodeRegion props)) (props_billingToken props) creds),
                 after ConfigRead w)
            | None, None => (Throw (PlainError credentials_not_found), after ConfigRead w)
            end
        end
    end.
Proof.
  destruct (Network_from (requested_network props)) as [net | e0] eqn:Hnet.
  2: { apply (AwsProvider_new_unknown_network _ _ _ Hnet). }
  destruct (truthy (props_nodeId props)) eqn:Hid;
    destruct (truthy (props_nodeRegion props)) eqn:Hregion.
  - destruct (props_credentials props) as [creds |] eqn:Hcreds.
    + apply (AwsProvider_new_explicit _ _ _ _ Hnet Hid Hregion Hcreds).
    + destruct (ambient w) as [creds |] eqn:Hamb.
      * apply (AwsProvider_new_ambient _ _ _ _ Hnet Hid Hregion Hcreds Hamb).
      * apply (AwsProvider_new_no_credentials _ _ _ Hnet Hid Hregion Hcreds Hamb).
  - apply (AwsProvider_new_nodeRegion_required _ _ _ Hnet Hid Hregion).
  - apply (AwsProvider_new_nodeId_required _ _ _ Hnet Hid Hregion).
  - apply (AwsProvider_new_lookup _ _ _ Hnet Hid Hregion).
Qed.

(** X1. The constructor returns a provider exactly when the network
    normalises, the node id and the region are both present, and credentials
    are given or found in the environment; the provider is then the one built
    from the normalised network, the given coordinates and billing token and
    those credentials, and the world is untouched (explicit credentials) or
    has one more configuration read (ambient ones). *)
Theorem AwsProvider_new_succeeds_iff props w (p : AwsProvider) (w' : World) :
  AwsProvider_new props w = (Ok p, w') ↔
  ∃ net creds,
    Network_from (requested_network props) = Ok net
    ∧ truthy (props_nodeId props) = true
    ∧ truthy (props_nodeRegion props) = true
    ∧ (props_credentials props = Some creds ∧ w' = w
       ∨ props_credentials props = None ∧ ambient w = Some creds ∧ w' = after ConfigRead w)
    ∧ p = provider_of net (text (props_nodeId props)) (text (props_nodeRegion props))
            (props_billingToken props) creds.
Proof.
  rewrite AwsProvider_new_cases. split.
  - destruct (Network_from (requested_network props)) as [net | e0]; [| discriminate].
    destruct (truthy (props_nodeId props)), (truthy (props_nodeRegion props));
      try discriminate.
    destruct (props_credentials props) as [creds |].
    + intros [= <- <-]. exists net, creds. repeat split; try reflexivity. left. done.
    + destruct (ambient w) as [creds |]; [| discriminate].
      intros [= <- <-]. exists net, creds. repeat split; try reflexivity. right. done.
  - intros (net & creds & -> & -> & -> & [[-> ->] | (-> & -> & ->)] & ->); reflexivity.
Qed.

(** X2. Without a node id, or without a region, construction fails for every
    network, billing token, credentials and environment, and fails before the
    AWS configuration is read; when the network normalises the error is an
    argument error. *)
Theorem constructor_needs_both_coordinates props w :
  truthy (props_nodeId props) = false ∨ truthy (props_nodeRegion props) = false →
  ∃ e w', AwsProvider_new props w = (Throw e, w')
          ∧ (ConfigRead ∉ events_since w w')
          ∧ (∀ net, Network_from (requested_network props) = Ok net →
               ∃ message argument value, e = ArgumentError message argument value).
Proof.
  intros Habsent. rewrite AwsProvider_new_cases.
  destruct (Network_from (requested_network props)) as [net | e0].
  2: { exists e0, w. split; [reflexivity |]. rewrite events_since_same.
       split; [apply not_elem_of_nil | discriminate]. }
  destruct (truthy (props_nodeId props)), (truthy (props_nodeRegion props)).
  - destruct Habsent; discriminate.
  - eexists _, w. split; [reflexivity |]. rewrite events_since_same.
    split; [apply not_elem_of_nil | intros; eauto].
  - eexists _, w. split; [reflexivity |]. rewrite events_since_same.
    split; [apply not_elem_of_nil | intros; eauto].
  - eexists _, _. split; [reflexivity |]. rewrite events_since_after.
    split; [rewrite list_elem_of_singleton; discriminate |].
    intros; unfold lookup_error; eauto.
Qed.

(** X3. The constructor never reads the clock or the trace, and reads the
    ambient configuration only for want of explicit credentials: in two
    worlds that agree on the ambient credentials, or in any two worlds when
    credentials are given, it returns the same outcome and adds the same
    events. *)
Theorem constructor_reads_only_the_configuration props (w1 w2 : World) :
  is_Some (props_credentials props) ∨ ambient w1 = ambient w2 →
  (AwsProvider_new props w1).1 = (AwsProvider_new props w2).1
  ∧ events_since w1 (AwsProvider_new props w1).2 =
      events_since w2 (AwsProvider_new props w2).2.
Proof.
  intros Hsame. rewrite !AwsProvider_new_cases.
  destruct (Network_from (requested_network props)) as [net | e0].
  2: { simpl. rewrite !events_since_same. done. }
  destruct (truthy (props_nodeId props)), (truthy (props_nodeRegion props)); simpl;
    rewrite ?events_since_same, ?events_since_after; try done.
  destruct (props_credentials props) as [creds |]; simpl.
  - rewrite !events_since_same. done.
  - destruct Hsame as [[c Hc] | Hsame]; [discriminate |]. rewrite Hsame.
    destruct (ambient w2); simpl; rewrite !events_since_after; done.
Qed.

(** X4. Whatever its outcome, the constructor leaves the ambient
    configuration and the clock as they were, adds at most one event to the
    trace, and never writes to the console. *)
Theorem constructor_footprint props w :
  ambient (AwsProvider_new props w).2 = ambient w
  ∧ now (AwsProvider_new props w).2 = now w
  ∧ ∃ events, trace (AwsProvider_new props w).2 = (trace w ++ events)%list
              ∧ (length events ≤ 1)%nat
              ∧ ∀ e, ConsoleError e ∉ events.
Proof.
  rewrite AwsProvider_new_cases.
  assert (Hnone : ambient w = ambient w ∧ now w = now w
                  ∧ ∃ events, trace w = (trace w ++ events)%list ∧ (length events ≤ 1)%nat
                              ∧ ∀ e, ConsoleError e ∉ events).
  { do 2 (split; [reflexivity |]). exists []. rewrite app_nil_r.
    split; [reflexivity |]. split; [simpl; lia | intros e; apply not_elem_of_nil]. }
  assert (Hone : ∀ ev, (∀ e, ev ≠ ConsoleError e) →
            ambient (after ev w) = ambient w ∧ now (after ev w) = now w
            ∧ ∃ events, trace (after ev w) = (trace w ++ events)%list ∧ (length events ≤ 1)%nat
                        ∧ ∀ e, ConsoleError e ∉ events).
  { intros ev Hev. do 2 (split; [reflexivity |]). exists [ev].
    split; [reflexivity |]. split; [simpl; lia |].
    intros e. rewrite list_elem_of_singleton. intros Heq. apply (Hev e). congruence. }
  destruct (Network_from (requested_network props)) as [net | e0]; [| exact Hnone].
  destruct (truthy (props_nodeId props)), (truthy (props_nodeRegion props));
    try exact Hnone.
  - destruct (props_credentials props) as [creds |]; [exact Hnone |].
    destruct (ambient w); apply Hone; discriminate.
  - apply Hone; discriminate.
Qed.


End ConstructorOutcomes.

(** ** Further properties of the derivation *)

Section DerivationOutcomes.
Context `{BaseProvider}.

Implicit Types (props : AwsProviderProps) (w : World) (this : AwsProvider).

Lemma AwsProvider_new_inv props w (p : AwsProvider) (w' : World) :
  AwsProvider_new props w = (Ok p, w') →
  ∃ net creds,
    truthy (props_nodeId props) = true ∧ truthy (props_nodeRegion props) = true
    ∧ p = provider_of net (text (props_nodeId props)) (text (props_nodeRegion props))
            (props_billingToken props) creds.
Proof.
  rewrite AwsProvider_new_cases.
  destruct (Network_from (requested_network props)) as [net | e0]; [| discriminate].
  destruct (truthy (props_nodeId props)), (truthy (props_nodeRegion props));
    try discriminate.
  destruct (props_credentials props) as [creds |];
    [| destruct (ambient w) as [creds |]; [| discriminate]];
    intros [= <- _]; exists net, creds; done.
Qed.

Lemma getProvider_derived this (chainId : Z) w (net : Network) :
  nodeId (aws this) ≠ "" → nodeRegion (aws this) ≠ "" →
  Network_from (NwChainId chainId) = Ok net →
  _getProvider this chainId w =
    (Ok (IsAwsProvider (provider_of net (nodeId (aws this)) (nodeRegion (aws this)) None
                          (credentials (aws this)))), w).
Proof.
  intros Hid Hregion Hnet. apply truthy_Some in Hid, Hregion.
  rewrite getProvider_run.
  rewrite (AwsProvider_new_explicit (derived_props this chainId) w net (credentials (aws this)));
    [reflexivity | exact Hnet | exact Hid | exact Hregion | reflexivity].
Qed.

(** X6. [_getProvider] does not pass the billing token on: the provider it
    derives has the bare endpoint of the node, without a query string, as
    recorded endpoint and as URL of its request template; when the original
    was built with a non-empty billing token, the original's endpoint is the
    derived one followed by "?billingToken=" and the token, so the two
    differ. *)
Theorem derived_provider_has_bare_endpoint props (w0 w1 : World) this (chainId : Z) w
    (net : Network) :
  AwsProvider_new props w0 = (Ok this, w1) →
  Network_from (NwChainId chainId) = Ok net →
  ∃ p, _getProvider this chainId w = (Ok (IsAwsProvider p), w)
       ∧ nodeHttpEndpoint (aws p) =
           "https://" +:+ nodeId (aws this) +:+ ".ethereum.managedblockchain."
           +:+ nodeRegion (aws this) +:+ ".amazonaws.com"
       ∧ url (connection (base p)) = nodeHttpEndpoint (aws p)
       ∧ (∀ tok, props_billingToken props = Some tok → tok ≠ "" →
            nodeHttpEndpoint (aws this) = nodeHttpEndpoint (aws p) +:+ "?billingToken=" +:+ tok
            ∧ nodeHttpEndpoint (aws this) ≠ nodeHttpEndpoint (aws p)).
Proof.
  intros Hthis Hnet.
  destruct (AwsProvider_new_inv _ _ _ _ Hthis) as (net0 & creds & Hid & Hregion & ->).
  destruct (truthy_text _ Hid) as [_ Hid']. destruct (truthy_text _ Hregion) as [_ Hregion'].
  eexists. split; [apply (getProvider_derived _ _ _ net); assumption |].
  simpl. split; [reflexivity |]. split; [reflexivity |].
  intros tok -> Htok.
  assert (Heq : getAmbNodeUrl (text (props_nodeId props)) (text (props_nodeRegion props)) (Some tok) =
                getAmbNodeUrl (text (props_nodeId props)) (text (props_nodeRegion props)) None
                +:+ "?billingToken=" +:+ tok) by (apply getAmbNodeUrl_token, Htok).
  split; [exact Heq |].
  rewrite Heq. intros Hsame. apply append_fixed in Hsame. discriminate.
Qed.

(** X7. Deriving does not depend on which sibling one derives from: when two
    chain ids normalise, the provider derived for the second from the
    provider derived for the first is the provider derived for the second
    from the original; in particular deriving again for the same chain
    returns an equal provider. *)
Theorem derivation_from_a_sibling props (w0 w1 : World) this (c1 c2 : Z) w
    (net1 net2 : Network) :
  AwsProvider_new props w0 = (Ok this, w1) →
  Network_from (NwChainId c1) = Ok net1 →
  Network_from (NwChainId c2) = Ok net2 →
  ∃ p1, _getProvider this c1 w = (Ok (IsAwsProvider p1), w)
        ∧ _getProvider p1 c2 w = _getProvider this c2 w
        ∧ _getProvider p1 c1 w = (Ok (IsAwsProvider p1), w).
Proof.
  intros Hthis Hnet1 Hnet2.
  destruct (AwsProvider_new_inv _ _ _ _ Hthis) as (net0 & creds & Hid & Hregion & ->).
  destruct (truthy_text _ Hid) as [_ Hid']. destruct (truthy_text _ Hregion) as [_ Hregion'].
  eexists. split; [apply (getProvider_derived _ _ _ net1); assumption |].
  split.
  - rewrite (getProvider_derived _ c2 w net2); [| assumption ..].
    rewrite (getProvider_derived _ c2 w net2); [| assumption ..]. reflexivity.
  - rewrite (getProvider_derived _ c1 w net1); [| assumption ..]. reflexivity.
Qed.

(** X8. On a provider the constructor returned, [_getProvider] answers with
    a derived AwsProvider exactly when the chain id normalises; the only way
    the derived construction can throw is the normalisation of the chain id,
    and it then throws that error without touching the world, so the error
    written to the console is the normalisation's. *)
Theorem getProvider_falls_back_iff props (w0 w1 : World) this (chainId : Z) w :
  AwsProvider_new props w0 = (Ok this, w1) →
  ((∃ p w', _getProvider this chainId w = (Ok (IsAwsProvider p), w'))
   ↔ ∃ net, Network_from (NwChainId chainId) = Ok net)
  ∧ (∀ e w', AwsProvider_new (derived_props this chainId) w = (Throw e, w') →
       Network_from (NwChainId chainId) = Throw e ∧ w' = w).
Proof.
  intros Hthis.
  destruct (AwsProvider_new_inv _ _ _ _ Hthis) as (net0 & creds & Hid & Hregion & ->).
  destruct (truthy_text _ Hid) as [_ Hid']. destruct (truthy_text _ Hregion) as [_ Hregion'].
  split.
  - split.
    + intros (p & w' & Hrun). rewrite getProvider_run in Hrun.
      destruct (Network_from (NwChainId chainId)) as [net | e] eqn:Hnet; [eauto |].
      rewrite (AwsProvider_new_unknown_network (derived_props _ chainId) w e Hnet) in Hrun.
      simpl in Hrun.
      destruct (JsonRpcProvider_getProvider _ _ _) as [[b | e'] w'']; discriminate.
    + intros [net Hnet]. eexists _, _. apply (getProvider_derived _ _ _ net); assumption.
  - intros e w' Hnew.
    destruct (Network_from (NwChainId chainId)) as [net | e0] eqn:Hnet.
    + apply truthy_Some in Hid', Hregion'.
      rewrite (AwsProvider_new_explicit (derived_props _ chainId) w net creds) in Hnew;
        [discriminate | exact Hnet | exact Hid' | exact Hregion' | reflexivity].
    + rewrite (AwsProvider_new_unknown_network (derived_props _ chainId) w e0 Hnet) in Hnew.
      injection Hnew as <- <-. done.
Qed.

End DerivationOutcomes.

(** ** Further properties of the preflight hook *)

Section PreflightOutcomes.
Context `{Platform}.

Implicit Types (r : FetchRequest) (w : World) (entries : list (string * string))
  (h : gmap string string) (creds : Credentials) (region : string).

Lemma FetchRequest_eq r1 r2 :
  url r1 = url r2 → method r1 = method r2 → headers r1 = headers r2 →
  body r1 = body r2 → preflightFunc r1 = preflightFunc r2 → r1 = r2.
Proof. destruct r1, r2. simpl. intros -> -> -> -> ->. reflexivity. Qed.


(** On a signed name the merged value does not depend on what was there. *)
Lemma merge_headers_signed_indep entries h1 h2 (k : string) :
  k ∈ stored_names entries → merge_headers entries h1 !! k = merge_headers entries h2 !! k.
Proof.
  revert h1 h2. induction entries as [| kv entries IH]; intros h1 h2 Hk.
  - apply elem_of_nil in Hk. contradiction.
  - unfold merge_headers. simpl.
    fold (merge_headers entries (<[header_key kv.1 := kv.2]> h1)).
    fold (merge_headers entries (<[header_key kv.1 := kv.2]> h2)).
    destruct (decide (k ∈ stored_names entries)) as [Hlater | Hlater].
    + apply IH, Hlater.
    + unfold stored_names in Hk. rewrite fmap_cons in Hk.
      apply elem_of_cons in Hk as [-> | Hk]; [| contradiction].
      rewrite !(merge_headers_frame _ _ _ Hlater), !lookup_insert_eq. reflexivity.
Qed.

Lemma merge_headers_absorb entries h :
  merge_headers entries (merge_headers entries h) = merge_headers entries h.
Proof.
  apply map_eq. intros k.
  destruct (decide (k ∈ stored_names entries)) as [Hk | Hk].
  - apply merge_headers_signed_indep, Hk.
  - apply merge_headers_frame, Hk.
Qed.

Lemma preflightFunc_run_signed creds region r w entries :
  signedAwsHeaders creds region r w = (Ok entries, w) →
  preflightFunc_run creds region r w =
    (Ok (foldl (λ acc kv, setHeader kv.1 kv.2 acc) r entries), w).
Proof.
  intros Hsigned. unfold preflightFunc_run. unfold mbind, M_bind. rewrite Hsigned. reflexivity.
Qed.

(** X9. Running the hook again at the same clock reading changes nothing:
    the request it returned is returned unchanged, since the same descriptor
    is signed at the same date and the same headers are set again. *)
Theorem preflight_idempotent_at_an_instant creds region r w (r1 : FetchRequest) (w1 : World) :
  preflightFunc_run creds region r w = (Ok r1, w1) →
  preflightFunc_run creds region r1 w = (Ok r1, w).
Proof.
  intros Hrun.
  destruct (preflightFunc_run_inv _ _ _ _ _ _ Hrun) as (entries & Hsigned & -> & ->).
  destruct (setHeader_fold entries r) as (Hu & Hm & Hb & Hp & Hh). simpl in *.
  set (r1 := foldl (λ acc kv, setHeader kv.1 kv.2 acc) r entries) in *.
  assert (Hsigned1 : signedAwsHeaders creds region r1 w = (Ok entries, w)).
  { pose proof (signedAwsHeaders_descriptor creds region r1 r w w Hu Hm Hb eq_refl) as Hsame.
    rewrite Hsigned in Hsame. simpl in Hsame.
    rewrite signedAwsHeaders_run in Hsame |- *. simpl in Hsame. rewrite Hsame. reflexivity. }
  rewrite (preflightFunc_run_signed _ _ _ _ _ Hsigned1). f_equal. f_equal.
  destruct (setHeader_fold entries r1) as (Hu1 & Hm1 & Hb1 & Hp1 & Hh1). simpl in *.
  apply FetchRequest_eq; try assumption.
  rewrite Hh1, Hh. apply merge_headers_absorb.
Qed.

(** X10. The hook never removes a header: after it, the request has a header
    under a name exactly when it had one before or the name is the stored
    name of a signed header. *)
Theorem preflight_header_names creds region r w (r1 : FetchRequest) (w1 : World) :
  preflightFunc_run creds region r w = (Ok r1, w1) →
  ∃ entries, signedAwsHeaders creds region r w = (Ok entries, w)
    ∧ ∀ k, is_Some (headers r1 !! k) ↔ is_Some (headers r !! k) ∨ k ∈ stored_names entries.
Proof.
  intros Hrun.
  destruct (preflightFunc_run_inv _ _ _ _ _ _ Hrun) as (entries & Hsigned & -> & ->).
  destruct (setHeader_fold entries r) as (_ & _ & _ & _ & Hh). simpl in Hh.
  exists entries. split; [exact Hsigned |]. intros k. rewrite Hh.
  destruct (decide (k ∈ stored_names entries)) as [Hk | Hk].
  - destruct (merge_headers_signed entries (headers r) k Hk) as (k0 & v & _ & _ & Hget).
    rewrite Hget. split; [intros _; right; exact Hk | intros _; eauto].
  - rewrite (merge_headers_frame _ _ _ Hk). split; [intros Hs; left; exact Hs |].
    intros [Hs | Hs]; [exact Hs | contradiction].
Qed.



(** X13. The hook changes nothing in the world, whether it returns or
    throws. It throws the parser's error when the request's URL does not
    parse, whatever the signer would do; it throws the signer's error when
    the URL parses and the signer rejects the request; and when both succeed
    it returns the request with the signed headers merged into its headers. *)
Theorem preflight_outcome creds region r w :
  (preflightFunc_run creds region r w).2 = w
  ∧ (∀ e, URL_new (url r) = Throw e → (preflightFunc_run creds region r w).1 = Throw e)
  ∧ (∀ u e, URL_new (url r) = Ok u →
       SignatureV4_sign (mkSignatureV4 creds region "managedblockchain" Sha256)
         (canonical_request u (method r) (body r)) (now w) = Throw e →
       (preflightFunc_run creds region r w).1 = Throw e)
  ∧ (∀ u signed, URL_new (url r) = Ok u →
       SignatureV4_sign (mkSignatureV4 creds region "managedblockchain" Sha256)
         (canonical_request u (method r) (body r)) (now w) = Ok signed →
       ∃ r1, (preflightFunc_run creds region r w).1 = Ok r1
             ∧ headers r1 = merge_headers (HttpRequest_headers signed) (headers r)).
Proof.
  assert (Hrun : ∀ out, signedAwsHeaders creds region r w = (out, w) →
            preflightFunc_run creds region r w =
              (match out with
               | Ok entries => Ok (foldl (λ acc kv, setHeader kv.1 kv.2 acc) r entries)
               | Throw e => Throw e
               end, w)).
  { intros out Hout. unfold preflightFunc_run. unfold mbind, M_bind. rewrite Hout.
    destruct out; reflexivity. }
  rewrite (Hrun _ (signedAwsHeaders_run creds region r w)). clear Hrun.
  split; [| split; [| split]].
  - reflexivity.
  - intros e ->. reflexivity.
  - intros u e -> Hsign. simpl. rewrite Hsign. reflexivity.
  - intros u signed -> Hsign. simpl. rewrite Hsign. simpl. eexists. split; [reflexivity |].
    apply (setHeader_fold (HttpRequest_headers signed) r).
Qed.

End PreflightOutcomes.

(** ** Further properties of the endpoint builder *)

Lemma append_cancel (s t1 t2 : string) : s +:+ t1 = s +:+ t2 → t1 = t2.
Proof.
  induction s as [| c s IH]; simpl; [intros Ht; exact Ht |].
  intros Hs. injection Hs as Hs. apply IH, Hs.
Qed.

(** X14. For a given node, the endpoint determines the billing token: two
    non-empty tokens that give the same URL are the same token, and a
    non-empty token never gives the URL of the node without a token. *)
Theorem getAmbNodeUrl_determines_token (nodeId nodeRegion t1 t2 : string) :
  t1 ≠ "" → t2 ≠ "" →
  (getAmbNodeUrl nodeId nodeRegion (Some t1) = getAmbNodeUrl nodeId nodeRegion (Some t2) →
   t1 = t2)
  ∧ getAmbNodeUrl nodeId nodeRegion (Some t1) ≠ getAmbNodeUrl nodeId nodeRegion None.
Proof.
  intros Ht1 Ht2. rewrite !getAmbNodeUrl_token by assumption. split.
  - intros Heq. apply append_cancel in Heq. apply (append_cancel "?billingToken=") in Heq.
    exact Heq.
  - intros Heq. apply append_fixed in Heq. discriminate.
Qed.

(** ** The statements on the sample platform *)

Lemma getCommunityAmbNodeProps_always_fails_witness :
  getCommunityAmbNodeProps (mkNetwork "goerli" 5) =
    Throw (ArgumentError no_community_node "network.name" (Some "goerli"))
  ∧ getCommunityAmbNodeProps (mkNetwork "sepolia" 11155111) =
      Throw (ArgumentError "Unsupported network" "network.name" (Some "sepolia")).
Proof.
  split.
  - apply (getCommunityAmbNodeProps_always_fails (mkNetwork "goerli" 5)).
    apply (bool_decide_unpack _). exact I.
  - apply (getCommunityAmbNodeProps_always_fails (mkNetwork "sepolia" 11155111)).
    apply (bool_decide_eq_false_1 _). reflexivity.
Defined.

Lemma getAmbNodeUrl_template_witness :
  "tok" ≠ ""
  ∧ getAmbNodeUrl "abc" "us-east-1" None =
      "https://abc.ethereum.managedblockchain.us-east-1.amazonaws.com"
  ∧ getAmbNodeUrl "abc" "us-east-1" (Some "tok") =
      "https://abc.ethereum.managedblockchain.us-east-1.amazonaws.com?billingToken=tok".
Proof.
  split; [discriminate |].
  apply (getAmbNodeUrl_template "abc" "us-east-1" "tok"). discriminate.
Defined.

Lemma constructor_rejects_mismatched_coordinates_witness :
  AwsProvider_new (mkAwsProviderProps None (Some "r1") None None None) sample_world =
    (Throw (ArgumentError "nodeId required with nodeRegion" "nodeId" None), sample_world)
  ∧ AwsProvider_new (mkAwsProviderProps (Some "n1") (Some "") None None None) sample_world =
      (Throw (ArgumentError "nodeRegion required with nodeId" "nodeRegion" (Some "")), sample_world)
  ∧ DirectoryLookup mainnet ∈
      events_since sample_world
        (AwsProvider_new (mkAwsProviderProps None None None None None) sample_world).2.
Proof.
  split; [| split].
  - destruct (constructor_rejects_mismatched_coordinates
                (mkAwsProviderProps None (Some "r1") None None None) sample_world)
      as (Hcase & _ & _).
    destruct (Hcase eq_refl eq_refl) as (e & Hrun & Hknown & _).
    rewrite Hrun, (Hknown mainnet eq_refl). reflexivity.
  - destruct (constructor_rejects_mismatched_coordinates
                (mkAwsProviderProps (Some "n1") (Some "") None None None) sample_world)
      as (_ & Hcase & _).
    destruct (Hcase eq_refl eq_refl) as (e & Hrun & Hknown & _).
    rewrite Hrun, (Hknown mainnet eq_refl). reflexivity.
  - apply (constructor_rejects_mismatched_coordinates
             (mkAwsProviderProps None None None None None) sample_world).
    repeat split; reflexivity.
Defined.

Lemma credential_resolution_witness :
  (∃ p, AwsProvider_new sample_props sample_world = (Ok p, sample_world)
        ∧ credentials (aws p) = sample_keys)
  ∧ (∃ p, AwsProvider_new (mkAwsProviderProps (Some "n1") (Some "r1") None None None)
            sample_world_with_ambient = (Ok p, after ConfigRead sample_world_with_ambient)
          ∧ credentials (aws p) = sample_keys)
  ∧ AwsProvider_new (mkAwsProviderProps (Some "n1") (Some "r1") None None None) sample_world =
      (Throw (PlainError credentials_not_found), after ConfigRead sample_world)
  ∧ contains credentials_guide credentials_not_found.
Proof.
  split; [| split; [| split]].
  - destruct (credential_resolution sample_props sample_world mainnet eq_refl eq_refl eq_refl)
      as (Hexplicit & _).
    apply Hexplicit. reflexivity.
  - destruct (credential_resolution (mkAwsProviderProps (Some "n1") (Some "r1") None None None)
                sample_world_with_ambient mainnet eq_refl eq_refl eq_refl)
      as (_ & Hambient & _).
    apply (Hambient sample_keys eq_refl eq_refl).
  - destruct (credential_resolution (mkAwsProviderProps (Some "n1") (Some "r1") None None None)
                sample_world mainnet eq_refl eq_refl eq_refl)
      as (_ & _ & Hnone & _).
    apply (Hnone eq_refl eq_refl).
  - destruct (credential_resolution sample_props sample_world mainnet eq_refl eq_refl eq_refl)
      as (_ & _ & _ & _ & Hguide).
    exact Hguide.
Defined.

Lemma constructor_records_state_witness :
  ∃ p, AwsProvider_new sample_props sample_world = (Ok p, sample_world)
       ∧ network (base p) = mainnet
       ∧ nodeId (aws p) = "n1"
       ∧ nodeRegion (aws p) = "r1"
       ∧ credentials (aws p) = sample_keys
       ∧ nodeHttpEndpoint (aws p) = "https://n1.ethereum.managedblockchain.r1.amazonaws.com".
Proof.
  assert (Hid : "n1" ≠ "") by discriminate.
  assert (Hregion : "r1" ≠ "") by discriminate.
  destruct (constructor_records_state (H := sample_platform) "n1" "r1" None sample_keys
              sample_world mainnet
              Hid Hregion eq_refl)
    as (p & Hrun & Hnet & _ & Hi & Hr & Hc & _ & _ & Hurl & _).
  exists p. split; [exact Hrun |]. split; [exact Hnet |]. split; [exact Hi |].
  split; [exact Hr |]. split; [exact Hc |]. apply Hurl. reflexivity.
Defined.

Lemma getProvider_derives_or_falls_back_witness :
  (∃ p, _getProvider sample_provider 5 sample_world = (Ok (IsAwsProvider p), sample_world)
        ∧ nodeId (aws p) = "n1" ∧ nodeRegion (aws p) = "r1"
        ∧ credentials (aws p) = sample_keys
        ∧ network (base p) = mkNetwork "goerli" 5)
  ∧ _getProvider sample_provider 0 sample_world =
      (Throw (PlainError "provider cannot connect to target network"),
       after (ConsoleError (ArgumentError "invalid chainId" "network" None)) sample_world).
Proof.
  assert (Hthis : AwsProvider_new sample_props sample_world = (Ok sample_provider, sample_world))
    by reflexivity.
  split.
  - apply (getProvider_derives_or_falls_back sample_props sample_world sample_world
             sample_provider 5 sample_world Hthis).
    reflexivity.
  - destruct (getProvider_derives_or_falls_back sample_props sample_world sample_world
                sample_provider 0 sample_world Hthis) as (_ & Hcatch & Hthrows).
    apply (Hcatch _ _ (Hthrows _ eq_refl)
             (Throw (PlainError "provider cannot connect to target network"))).
    reflexivity.
Defined.

Lemma preflight_changes_only_signed_headers_witness :
  preflightFunc_run sample_keys "r1" sample_request_with_header sample_world =
    (Ok sample_signed_request, sample_world)
  ∧ headers sample_request_with_header !! "content-type" = Some "application/json"
  ∧ headers sample_signed_request !! "content-type" = Some "application/json"
  ∧ headers sample_signed_request !! "x-amz-date" = Some "1700000000000".
Proof.
  assert (Hrun : preflightFunc_run sample_keys "r1" sample_request_with_header sample_world =
                   (Ok sample_signed_request, sample_world)) by (vm_compute; reflexivity).
  split; [exact Hrun |]. split; [vm_compute; reflexivity |].
  destruct (preflight_changes_only_signed_headers (H := sample_platform) _ _ _ _ _ _ Hrun)
    as (_ & entries & Hsigned & _ & _ & _ & _ & _ & Hframe & _ & Hhit & _).
  vm_compute in Hsigned. injection Hsigned as <-.
  split.
  - rewrite (Hframe "content-type"); [vm_compute; reflexivity |].
    apply (bool_decide_eq_false_1 _). vm_compute. reflexivity.
  - apply (Hhit "X-Amz-Date" "1700000000000").
    + apply (bool_decide_unpack _). vm_compute. exact I.
    + apply (bool_decide_unpack _). vm_compute. exact I.
Defined.

Lemma signing_ignores_existing_headers_witness :
  headers sample_request ≠ headers sample_request_with_header
  ∧ (signedAwsHeaders sample_keys "r1" sample_request sample_world).1 =
      (signedAwsHeaders sample_keys "r1" sample_request_with_header sample_world).1.
Proof.
  split.
  - intros Heq.
    assert (Hget : headers sample_request !! "content-type" =
                   headers sample_request_with_header !! "content-type") by (rewrite Heq; reflexivity).
    vm_compute in Hget. discriminate.
  - apply (signing_ignores_existing_headers (H := sample_platform) sample_keys "r1" sample_request
             sample_request_with_header sample_world sample_world
             eq_refl eq_refl eq_refl eq_refl).
Defined.

Lemma constructor_needs_both_coordinates_witness :
  ∃ e w', AwsProvider_new (mkAwsProviderProps (H := sample_platform) None None (Some "tok") None (Some sample_keys))
            sample_world_with_ambient = (Throw e, w')
          ∧ ConfigRead ∉ events_since sample_world_with_ambient w'.
Proof.
  destruct (constructor_needs_both_coordinates
              (mkAwsProviderProps (H := sample_platform) None None (Some "tok") None (Some sample_keys))
              sample_world_with_ambient (or_introl eq_refl))
    as (e & w' & Hrun & Hquiet & _).
  exists e, w'. split; [exact Hrun | exact Hquiet].
Defined.

Lemma constructor_reads_only_the_configuration_witness :
  (AwsProvider_new (mkAwsProviderProps (Some "n1") (Some "r1") None None None)
     sample_world_with_ambient).1 =
  (AwsProvider_new (mkAwsProviderProps (Some "n1") (Some "r1") None None None)
     sample_world_later).1.
Proof.
  apply (constructor_reads_only_the_configuration
           (mkAwsProviderProps (Some "n1") (Some "r1") None None None)
           sample_world_with_ambient sample_world_later).
  right. reflexivity.
Defined.


Lemma derived_provider_has_bare_endpoint_witness :
  ∃ p, _getProvider sample_provider_billed 5 sample_world = (Ok (IsAwsProvider p), sample_world)
       ∧ nodeHttpEndpoint (aws p) = "https://n1.ethereum.managedblockchain.r1.amazonaws.com"
       ∧ nodeHttpEndpoint (aws sample_provider_billed) ≠ nodeHttpEndpoint (aws p).
Proof.
  destruct (derived_provider_has_bare_endpoint sample_props_billed sample_world sample_world
              sample_provider_billed 5 sample_world (mkNetwork "goerli" 5) eq_refl eq_refl)
    as (p & Hrun & Hbare & _ & Htoken).
  exists p. split; [exact Hrun |]. split; [exact Hbare |].
  apply (Htoken "tok"); [reflexivity | discriminate].
Defined.

Lemma derivation_from_a_sibling_witness :
  ∃ p1, _getProvider sample_provider 5 sample_world = (Ok (IsAwsProvider p1), sample_world)
        ∧ _getProvider p1 137 sample_world = _getProvider sample_provider 137 sample_world.
Proof.
  destruct (derivation_from_a_sibling sample_props sample_world sample_world sample_provider
              5 137 sample_world (mkNetwork "goerli" 5) (mkNetwork "matic" 137)
              eq_refl eq_refl eq_refl)
    as (p1 & Hrun & Hsame & _).
  exists p1. split; [exact Hrun | exact Hsame].
Defined.

Lemma getProvider_falls_back_iff_witness :
  ∃ p w', _getProvider sample_provider 5 sample_world = (Ok (IsAwsProvider p), w').
Proof.
  apply (getProvider_falls_back_iff sample_props sample_world sample_world sample_provider
           5 sample_world eq_refl).
  exists (mkNetwork "goerli" 5). reflexivity.
Defined.

Lemma preflight_idempotent_at_an_instant_witness :
  preflightFunc_run sample_keys "r1" sample_signed_request sample_world =
    (Ok sample_signed_request, sample_world).
Proof.
  apply (preflight_idempotent_at_an_instant (H := sample_platform) sample_keys "r1"
           sample_request_with_header sample_world sample_signed_request sample_world).
  vm_compute. reflexivity.
Defined.

Lemma preflight_header_names_witness :
  is_Some (headers sample_signed_request !! "content-type")
  ∧ is_Some (headers sample_signed_request !! "authorization").
Proof.
  assert (Hrun : preflightFunc_run sample_keys "r1" sample_request_with_header sample_world =
                   (Ok sample_signed_request, sample_world)) by (vm_compute; reflexivity).
  destruct (preflight_header_names (H := sample_platform) _ _ _ _ _ _ Hrun)
    as (entries & Hsigned & Hnames).
  vm_compute in Hsigned. injection Hsigned as <-. split.
  - apply Hnames. left. vm_compute. eauto.
  - apply Hnames. right. apply (bool_decide_unpack _). vm_compute. exact I.
Defined.



Lemma getAmbNodeUrl_determines_token_witness :
  getAmbNodeUrl "abc" "us-east-1" (Some "tok") ≠ getAmbNodeUrl "abc" "us-east-1" None.
Proof.
  apply (getAmbNodeUrl_determines_token "abc" "us-east-1" "tok" "kot"); discriminate.
Defined.
